(** * dyfn backend: route handlers of [main.py] over a document store

    The handlers of [main.py] are embedded as functions in a small
    state-and-exception monad over a [world]: the process-wide store
    handle [db], the process environment, and the outcomes the store
    will give to the next operations.  Python dictionaries are finite
    maps from text keys to values, as the handlers build and mutate
    them. *)

From Stdlib Require Import Ascii String.
From stdpp Require Import gmap strings pretty list fin_maps.

Open Scope string_scope.
Open Scope Z_scope.

(** ** Python and document values *)

(** Values held in dictionaries: request filters, stored documents and
    response bodies.  A float is kept as its decimal literal
    ([24.99] is [VFloat "24.99"]); the handlers only store and return
    floats.  [VOid] is the store's native identifier type (ObjectId),
    a number the store assigns. *)
#[warnings="-register-all"]
Inductive value :=
  | VNone
  | VBool (b : bool)
  | VInt (z : Z)
  | VFloat (literal : string)
  | VStr (s : string)
  | VOid (oid : N)
  | VList (l : list value)
  | VDict (d : gmap string value).

(** A Python [dict] with text keys. *)
Abbreviation dict := (gmap string value).

(** Python truthiness of an [Optional[str]] (the tests [if category:],
    [if search:] and [if os.getenv(..)]): [None] and the empty text are
    false. *)
Definition truthy (o : option string) : bool :=
  match o with
  | Some s => negb (bool_decide (s = ""))
  | None => false
  end.

(** ** Text *)

(** Text is a [string] holding the UTF-8 encoding; a character is a
    leading byte with the continuation bytes (10xxxxxx) after it. *)
Definition is_continuation (c : ascii) : bool :=
  match c with
  | Ascii _ _ _ _ _ _ b6 b7 => b7 && negb b6
  end.

Definition is_ascii7 (c : ascii) : bool :=
  match c with
  | Ascii _ _ _ _ _ _ _ b7 => negb b7
  end.

(** [s[:n]]: the first [n] characters of [s]. *)
Fixpoint py_take (n : nat) (s : string) : string :=
  match s with
  | EmptyString => EmptyString
  | String c rest =>
      if is_continuation c then String c (py_take n rest)
      else match n with
           | O => EmptyString
           | S n' => String c (py_take n' rest)
           end
  end.

Fixpoint skip_continuation (t : string) : string :=
  match t with
  | EmptyString => EmptyString
  | String c rest => if is_continuation c then skip_continuation rest else t
  end.

(** ASCII case folding. *)
Definition lower (c : ascii) : ascii :=
  let n := N_of_ascii c in
  if ((65 <=? n) && (n <=? 90))%N then ascii_of_N (n + 32) else c.

Fixpoint string_lower (s : string) : string :=
  match s with
  | EmptyString => EmptyString
  | String c rest => String (lower c) (string_lower rest)
  end.

(** ** Regular expressions of the store's [$regex] operator

    The store evaluates [$regex] as a regular-expression search.  The
    fragment modelled here: a sequence of literal ASCII characters and
    the wildcard [.] (any character but a line feed).  A pattern using
    any other metacharacter, or a character outside ASCII, is outside
    the fragment ([regex_parse] gives [None]). *)
Inductive atom :=
  | Lit (c : ascii)
  | AnyChar.

Definition metachars : list ascii :=
  ["\"; "^"; "$"; "."; "|"; "?"; "*"; "+"; "("; ")"; "["; "]"; "{"; "}"]%char.

Definition is_literal_char (c : ascii) : bool :=
  is_ascii7 c && negb (bool_decide (c ∈ metachars)).

Definition parse_atom (c : ascii) : option atom :=
  if bool_decide (c = "."%char) then Some AnyChar
  else if is_literal_char c then Some (Lit c)
  else None.

Fixpoint regex_parse (s : string) : option (list atom) :=
  match s with
  | EmptyString => Some []
  | String c rest =>
      match parse_atom c, regex_parse rest with
      | Some a, Some p => Some (a :: p)
      | _, _ => None
      end
  end.

(** The [$options] text: only the empty one and ["i"] (case
    insensitive) are modelled. *)
Definition parse_options (o : string) : option bool :=
  if bool_decide (o = "") then Some false
  else if bool_decide (o = "i") then Some true
  else None.

Definition char_eq (ci : bool) (x c : ascii) : bool :=
  if ci then bool_decide (lower x = lower c) else bool_decide (x = c).

(** The pattern matches a prefix of [t]. *)
Fixpoint match_here (ci : bool) (p : list atom) (t : string) : bool :=
  match p, t with
  | [], _ => true
  | _ :: _, EmptyString => false
  | Lit x :: p', String c t' => char_eq ci x c && match_here ci p' t'
  | AnyChar :: p', String c t' =>
      negb (bool_decide (c = "010"%char)) && negb (is_continuation c)
      && match_here ci p' (skip_continuation t')
  end.

(** The pattern matches somewhere in [t]. *)
Fixpoint regex_search (ci : bool) (p : list atom) (t : string) : bool :=
  match_here ci p t
  || match t with
     | EmptyString => false
     | String _ t' => regex_search ci p t'
     end.


(** A decision procedure for [occurs_ci]. *)
Fixpoint prefix_ci (s t : string) : bool :=
  match s, t with
  | EmptyString, _ => true
  | String _ _, EmptyString => false
  | String a s', String b t' => bool_decide (lower a = lower b) && prefix_ci s' t'
  end.

Fixpoint occurs_cib (s t : string) : bool :=
  prefix_ci s t
  || match t with
     | EmptyString => false
     | String _ t' => occurs_cib s t'
     end.

(** A search text without metacharacters. *)
Fixpoint literal (s : string) : bool :=
  match s with
  | EmptyString => true
  | String c rest => is_literal_char c && literal rest
  end.

(** ** Store filters

    A filter is a dictionary.  A key naming a field constrains that
    field: a text value is an exact match, a dictionary
    [{"$regex": p, "$options": o}] a regular-expression search.  The
    key ["$or"] holds a list of filters of which one must hold.  All
    keys of a filter must hold together.  Other operators, dotted
    field paths and fields that hold lists are outside the fragment. *)
Definition is_field_name (k : string) : bool :=
  negb (bool_decide ("$"%char ∈ list_ascii_of_string k))
  && negb (bool_decide ("."%char ∈ list_ascii_of_string k)).

Definition cond_modelled (c : value) : bool :=
  match c with
  | VStr _ => true
  | VDict ops =>
      match ops !! "$regex", ops !! "$options" with
      | Some (VStr p), Some (VStr o) =>
          bool_decide (size ops = 2%nat)
          && bool_decide (is_Some (regex_parse p))
          && bool_decide (is_Some (parse_options o))
      | _, _ => false
      end
  | _ => false
  end.

Definition cond_holds (c : value) (field : option value) : bool :=
  match c with
  | VStr s =>
      match field with
      | Some (VStr t) => bool_decide (t = s)
      | _ => false
      end
  | VDict ops =>
      match ops !! "$regex", ops !! "$options" with
      | Some (VStr p), Some (VStr o) =>
          match regex_parse p, parse_options o, field with
          | Some r, Some ci, Some (VStr t) => regex_search ci r t
          | _, _, _ => false
          end
      | _, _ => false
      end
  | _ => false
  end.

Definition fields_modelled (q : dict) : bool :=
  bool_decide (map_Forall (λ k c, is_field_name k && cond_modelled c = true) q).

Definition fields_hold (q : dict) (doc : dict) : bool :=
  bool_decide (map_Forall (λ k c, cond_holds c (doc !! k) = true) q).

Definition alternative_modelled (v : value) : bool :=
  match v with
  | VDict q => fields_modelled q
  | _ => false
  end.

Definition alternative_holds (doc : dict) (v : value) : bool :=
  match v with
  | VDict q => fields_hold q doc
  | _ => false
  end.

Definition clause_modelled (k : string) (v : value) : bool :=
  if bool_decide (k = "$or") then
    match v with
    | VList (a :: alts) => forallb alternative_modelled (a :: alts)
    | _ => false
    end
  else is_field_name k && cond_modelled v.

Definition clause_holds (doc : dict) (k : string) (v : value) : bool :=
  if bool_decide (k = "$or") then
    match v with
    | VList alts => existsb (alternative_holds doc) alts
    | _ => false
    end
  else cond_holds v (doc !! k).

Definition query_modelled (q : dict) : bool :=
  bool_decide (map_Forall (λ k v, clause_modelled k v = true) q).

Definition query_holds (q : dict) (doc : dict) : bool :=
  bool_decide (map_Forall (λ k v, clause_holds doc k v = true) q).

(** What a [$regex] condition with option ["i"] asks of a field: the
    field holds a text in which the pattern has a case-insensitive
    match. *)
Definition field_matches (doc : dict) (field s : string) : Prop :=
  ∃ p t, regex_parse s = Some p ∧ doc !! field = Some (VStr t)
         ∧ regex_search true p t = true.

(** ** The world of a request *)

(** A Python exception [e] with [str(e) = msg]. *)
Inductive exn := Exception (msg : string).

Definition exn_str (e : exn) : string :=
  match e with
  | Exception msg => msg
  end.

(** What reading the attribute [db.name] does. *)
Inductive attribute :=
  | AttrAbsent
  | AttrValue (s : string)
  | AttrRaises (e : exn).

(** The store behind the handle: every collection with its documents
    in the store's own order, and the next identifier to assign. *)
Record database := Database {
  name : attribute;
  collections : gmap string (list dict);
  next_oid : N;
}.

(** [db] is the module-level handle ([None] when the store was never
    initialized), [environ] the process environment, and [faults] the
    outcomes of the coming round trips to the store: [Some e] makes
    the round trip raise [e]. *)
Record world := World {
  db : option database;
  environ : gmap string string;
  faults : list (option exn);
}.

Inductive outcome (A : Type) :=
  | Return (a : A)
  | Raise (e : exn)
  | HTTPException (status_code : Z) (detail : string)
  | Unmodelled.
Arguments Return {A} a.
Arguments Raise {A} e.
Arguments HTTPException {A} status_code detail.
Arguments Unmodelled {A}.

(** Handler code: a state transformer that returns, raises a Python
    exception, raises [HTTPException], or leaves the modelled
    fragment. *)
Definition M (A : Type) : Type := world → outcome A * world.

Definition ret {A} (a : A) : M A := λ w, (Return a, w).

Definition bind {A B} (m : M A) (k : A → M B) : M B :=
  λ w,
    match m w with
    | (Return a, w') => k a w'
    | (Raise e, w') => (Raise e, w')
    | (HTTPException st d, w') => (HTTPException st d, w')
    | (Unmodelled, w') => (Unmodelled, w')
    end.

Notation "'let*' x ':=' m 'in' k" := (bind m (λ x, k))
  (at level 10, x pattern, m at level 100, k at level 200, only parsing).

Definition raise {A} (e : exn) : M A := λ w, (Raise e, w).

Definition raise_http {A} (status_code : Z) (detail : string) : M A :=
  λ w, (HTTPException status_code detail, w).

(** [try: body except Exception as e: handler].  The handlers raise
    [HTTPException] only outside a [try] body. *)
Definition try_except {A} (body : M A) (handler : exn → M A) : M A :=
  λ w,
    match body w with
    | (Raise e, w') => handler e w'
    | r => r
    end.

Definition unmodelled {A} : M A := λ w, (Unmodelled, w).

(** ** The store client

    Modelled from the spec: the store client behind [db] (the methods
    [count_documents], [insert_one], [list_collection_names] and the
    cursor of [find]) is not part of [main.py].  A collection keeps
    its documents in insertion order, an insert assigns the next
    identifier, and every method is one round trip that the schedule
    in [faults] may turn into an exception. *)
Definition round_trip : M unit :=
  λ w,
    match faults w with
    | Some e :: rest => (Raise e, World (db w) (environ w) rest)
    | _ => (Return (), World (db w) (environ w) (tail (faults w)))
    end.

(** The next [n] round trips succeed. *)
Definition store_answers (n : nat) (w : world) : bool :=
  forallb (λ f : option exn, bool_decide (f = None)) (take n (faults w)).

(** The handle, for code that runs under an [if db is None] guard. *)
Definition the_db : M database :=
  λ w,
    match db w with
    | Some d => (Return d, w)
    | None => (Unmodelled, w)
    end.

Definition put_db (d : database) : M unit :=
  λ w, (Return (), World (Some d) (environ w) (faults w)).

Definition documents (coll : string) (d : database) : list dict :=
  default [] (collections d !! coll).

Definition matching (q : dict) (docs : list dict) : list dict :=
  List.filter (query_holds q) docs.

Definition count_documents (coll : string) (q : dict) : M Z :=
  let* d := the_db in
  let* _ := round_trip in
  if query_modelled q
  then ret (Z.of_nat (length (matching q (documents coll d))))
  else unmodelled.

(** An insert of a document that brings its own ["_id"] is outside
    the fragment: the handlers never send one. *)
Definition insert_one (coll : string) (document : dict) : M value :=
  let* d := the_db in
  let* _ := round_trip in
  match document !! "_id" with
  | Some _ => unmodelled
  | None =>
      let oid := next_oid d in
      let stored := <["_id" := VOid oid]> document in
      let* _ := put_db (Database (name d)
                          (<[coll := (documents coll d ++ [stored])%list]> (collections d))
                          (N.succ oid)) in
      ret (VOid oid)
  end.

Definition list_collection_names : M (list string) :=
  let* d := the_db in
  let* _ := round_trip in
  ret ((map_to_list (collections d)).*1).

(** [db[coll].find(q).limit(limit)], read as the specification words
    it: up to [limit] matching documents, in the store's order. *)
Definition find (coll : string) (q : dict) (limit : Z) : M (list dict) :=
  let* d := the_db in
  let* _ := round_trip in
  if query_modelled q
  then ret (take (Z.to_nat limit) (matching q (documents coll d)))
  else unmodelled.

Definition getenv (key : string) : M (option string) :=
  λ w, (Return (environ w !! key), w).

(** ** Handlers of [main.py] *)

Section Handlers.

(** Python's built-in [str] on the values a document can hold under
    ["_id"]; on an identifier it gives the identifier's text. *)
Variable py_str : value → string.

(** The text of the error with which [database.py] answers when there
    is no handle; [database.py] is not among the sources. *)
Variable store_unavailable : string.

(** *** The store adapter of [database.py] *)

(** Modelled from the spec: [create_document] of [database.py] is
    absent.  It "inserts a record into the named collection and
    returns its assigned identifier as text; fails with a StoreError if
    the store is unreachable or write is rejected". *)
Definition create_document (collection_name : string) (data : dict) : M string :=
  λ w,
    match db w with
    | None => raise (Exception store_unavailable) w
    | Some _ =>
        (let* inserted_id := insert_one collection_name data in
         ret (py_str inserted_id)) w
    end.

(** Modelled from the spec: [get_documents] of [database.py] is
    absent.  It "returns up to [limit] matching records in store-native
    order". *)
Definition get_documents (collection_name : string) (filter_dict : dict)
    (limit : Z) : M (list dict) :=
  λ w,
    match db w with
    | None => raise (Exception store_unavailable) w
    | Some _ => find collection_name filter_dict limit w
    end.

(** *** [GET /] and [GET /api/hello] *)

Definition read_root : M dict :=
  ret {[ "message" := VStr "dyfn backend is running" ]}.

Definition hello : M dict :=
  ret {[ "message" := VStr "Hello from dyfn backend!" ]}.

(** *** [GET /test] *)

(** [db.name if hasattr(db, 'name') else "✅ Connected"]: [hasattr]
    answers [False] when the attribute is absent and lets any other
    exception through. *)
Definition name_or_connected (d : database) : M string :=
  match name d with
  | AttrAbsent => ret "✅ Connected"
  | AttrValue s => ret s
  | AttrRaises e => raise e
  end.

(** The inner [try] of [test_database] (lines 45-50). *)
Definition probe_collections (response : dict) : M dict :=
  try_except
    (let* collections := list_collection_names in
     let response := <["collections" := VList (VStr <$> take 10 collections)]> response in
     let response := <["database" := VStr "✅ Connected & Working"]> response in
     ret response)
    (λ e,
       ret (<["database" :=
               VStr ("⚠️  Connected but Error: " +:+ py_take 50 (exn_str e))]>
              response)).

(** The outer [try] of [test_database] (lines 39-54).  Its only
    raising point outside the inner [try] is the read of [db.name], so
    the handler sees the response as lines 41-42 left it. *)
Definition probe_database (response : dict) : M dict :=
  λ w,
    match db w with
    | Some d =>
        let response := <["database" := VStr "✅ Available"]> response in
        let response := <["database_url" := VStr "✅ Configured"]> response in
        try_except
          (let* n := name_or_connected d in
           let response := <["database_name" := VStr n]> response in
           let response := <["connection_status" := VStr "Connected"]> response in
           probe_collections response)
          (λ e,
             ret (<["database" := VStr ("❌ Error: " +:+ py_take 50 (exn_str e))]>
                    response))
          w
    | None =>
        ret (<["database" := VStr "⚠️  Available but not initialized"]> response) w
    end.

Definition set_or_not (o : option string) : value :=
  if truthy o then VStr "✅ Set" else VStr "❌ Not Set".

Definition test_database : M dict :=
  let response : dict :=
    {[ "backend" := VStr "✅ Running";
       "database" := VStr "❌ Not Available";
       "database_url" := VNone;
       "database_name" := VNone;
       "connection_status" := VStr "Not Connected";
       "collections" := VList [] ]} in
  let* response := probe_database response in
  let* url := getenv "DATABASE_URL" in
  let response := <["database_url" := set_or_not url]> response in
  let* dbname := getenv "DATABASE_NAME" in
  let response := <["database_name" := set_or_not dbname]> response in
  ret response.

(** *** [GET /api/products] *)

(** Lines 69-77 of [list_products]: the filter built from the two
    optional texts. *)
Definition build_query (category search : option string) : dict :=
  let query : dict := ∅ in
  let query :=
    match category with
    | Some c =>
        if truthy category then <["category" := VStr c]> query else query
    | None => query
    end in
  let query :=
    match search with
    | Some s =>
        if truthy search then
          <["$or" :=
              VList
                [ VDict {[ "title" :=
                             VDict {[ "$regex" := VStr s; "$options" := VStr "i" ]} ]};
                  VDict {[ "description" :=
                             VDict {[ "$regex" := VStr s; "$options" := VStr "i" ]} ]} ]]>
            query
        else query
    | None => query
    end in
  query.

(** Lines 81-82: [if "_id" in p: p["id"] = str(p.pop("_id"))]. *)
Definition rename_id (p : dict) : dict :=
  match p !! "_id" with
  | Some oid => <["id" := VStr (py_str oid)]> (delete "_id" p)
  | None => p
  end.

(** [limit] is [None] when the request gives none: the signature's
    default is 100. *)
Definition list_products (category search : option string) (limit : option Z)
    : M (list dict) :=
  λ w,
    let limit := default 100 limit in
    match db w with
    | None => raise_http 500 "Database not configured" w
    | Some _ =>
        (let query := build_query category search in
         let* products := get_documents "product" query limit in
         ret (rename_id <$> products)) w
    end.

(** *** [POST /api/products] and [POST /api/orders] *)

Definition create_product (product : dict) : M dict :=
  try_except
    (let* inserted_id := create_document "product" product in
     ret {[ "id" := VStr inserted_id ]})
    (λ e, raise_http 500 (exn_str e)).

Definition create_order (order : dict) : M dict :=
  try_except
    (let* inserted_id := create_document "order" order in
     ret {[ "id" := VStr inserted_id; "status" := VStr "received" ]})
    (λ e, raise_http 500 (exn_str e)).

(** *** [POST /api/seed] *)

Definition sizes : value := VList [VStr "S"; VStr "M"; VStr "L"; VStr "XL"].

Definition seed_docs : list dict :=
  [ {[ "title" := VStr "Classic DYFN Tee";
       "description" := VStr "Premium cotton t-shirt with DYFN logo.";
       "price" := VFloat "24.99";
       "category" := VStr "tshirt";
       "image" := VStr "https://images.unsplash.com/photo-1512436991641-6745cdb1723f?q=80&w=1200&auto=format&fit=crop";
       "in_stock" := VBool true;
       "sizes" := sizes ]};
    {[ "title" := VStr "Oversized DYFN Tee";
       "description" := VStr "Relaxed fit, ultra-soft fabric.";
       "price" := VFloat "29.99";
       "category" := VStr "tshirt";
       "image" := VStr "https://images.unsplash.com/photo-1520975916090-3105956dac38?q=80&w=1200&auto=format&fit=crop";
       "in_stock" := VBool true;
       "sizes" := sizes ]};
    {[ "title" := VStr "DYFN Essential Hoodie";
       "description" := VStr "Midweight fleece hoodie for everyday wear.";
       "price" := VFloat "49.99";
       "category" := VStr "hoodie";
       "image" := VStr "https://images.unsplash.com/photo-1544441893-675973e31985?q=80&w=1200&auto=format&fit=crop";
       "in_stock" := VBool true;
       "sizes" := sizes ]};
    {[ "title" := VStr "DYFN Heavyweight Hoodie";
       "description" := VStr "Thick, cozy, perfect for cold days.";
       "price" := VFloat "59.99";
       "category" := VStr "hoodie";
       "image" := VStr "https://images.unsplash.com/photo-1548883354-7622d03aca9b?q=80&w=1200&auto=format&fit=crop";
       "in_stock" := VBool true;
       "sizes" := sizes ]} ].

(** Lines 148-149: [for d in docs: _ = db["product"].insert_one({**d})]. *)
Fixpoint insert_each (docs : list dict) : M unit :=
  match docs with
  | [] => ret ()
  | d :: rest =>
      let* _ := insert_one "product" d in
      insert_each rest
  end.

Definition seed_products : M dict :=
  λ w,
    match db w with
    | None => raise_http 500 "Database not configured" w
    | Some _ =>
        try_except
          (let* count := count_documents "product" ∅ in
           if 0 <? count then
             ret {[ "seeded" := VBool false;
                    "message" := VStr "Products already exist" ]}
           else
             let docs := seed_docs in
             let* _ := insert_each docs in
             ret {[ "seeded" := VBool true;
                    "count" := VInt (Z.of_nat (length docs)) ]})
          (λ e, raise_http 500 (exn_str e))
          w
    end.

End Handlers.

(** The documents as the store keeps them once it has assigned the
    identifiers from [oid] on. *)
Fixpoint stored_as (oid : N) (docs : list dict) : list dict :=
  match docs with
  | [] => []
  | d :: rest => <["_id" := VOid oid]> d :: stored_as (N.succ oid) rest
  end.

(** The status text and the collection names that [test_database]
    reports in each state of the store. *)
Definition database_status (w : world) : string :=
  match db w with
  | None => "⚠️  Available but not initialized"
  | Some d =>
      match name d with
      | AttrRaises e => "❌ Error: " +:+ py_take 50 (exn_str e)
      | _ =>
          match head (faults w) with
          | Some (Some e) => "⚠️  Connected but Error: " +:+ py_take 50 (exn_str e)
          | _ => "✅ Connected & Working"
          end
      end
  end.

Definition reported_collections (w : world) : list string :=
  match db w with
  | None => []
  | Some d =>
      match name d with
      | AttrRaises e => []
      | _ =>
          match head (faults w) with
          | Some (Some e) => []
          | _ => take 10 ((map_to_list (collections d)).*1)
          end
      end
  end.



(** ** Sample worlds *)

(** An instance of [str] to run the handlers with: an identifier
    prints as its number, a text as itself. *)
Definition id_text (v : value) : string :=
  match v with
  | VOid oid => pretty oid
  | VStr s => s
  | _ => ""
  end.

(** A store with an empty catalogue, and the same store once seeded. *)
Definition empty_shop : world :=
  World (Some (Database (AttrValue "dyfn") ∅ 1)) ∅ [].

Definition seeded_db : database :=
  Database (AttrValue "dyfn") {[ "product" := stored_as 1 seed_docs ]} 5.

Definition seeded_shop : world := World (Some seeded_db) ∅ [].

(** The empty catalogue behind a store that answers as scheduled. *)
Definition scheduled_shop (schedule : list (option exn)) : world :=
  World (Some (Database (AttrValue "dyfn") ∅ 1)) ∅ schedule.

(** A process without a store handle, and a record of the catalogue. *)
Definition unconfigured : world :=
  World None ∅ [Some (Exception "store unreachable")].

Definition heavyweight_hoodie : dict := default ∅ (seed_docs !! 3%nat).

(** * Properties *)

(** ** Text and regular expressions *)



Lemma is_literal_char_not_dot (c : ascii) :
  is_literal_char c = true → c ≠ "."%char.
Proof. intros H ->. vm_compute in H. discriminate. Qed.

Lemma regex_parse_literal (s : string) :
  literal s = true →
  regex_parse s = Some (Lit <$> list_ascii_of_string s).
Proof.
  induction s as [|c s IH]; simpl; [done|].
  rewrite andb_true_iff. intros [Hc Hs]. rewrite (IH Hs).
  unfold parse_atom. rewrite bool_decide_eq_false_2, Hc; [done|].
  by apply is_literal_char_not_dot.
Qed.

Lemma match_here_literal (s t : string) :
  match_here true (Lit <$> list_ascii_of_string s) t = prefix_ci s t.
Proof.
  revert t. induction s as [|c s IH]; intros t; simpl; [done|].
  destruct t as [|b t]; [done|]. by rewrite IH.
Qed.

Lemma regex_search_literal (s t : string) :
  regex_search true (Lit <$> list_ascii_of_string s) t = occurs_cib s t.
Proof.
  induction t as [|b t IH]; simpl; rewrite match_here_literal; [done|].
  by rewrite IH.
Qed.

(** ** Filters *)

Lemma truthy_Some (s : string) : truthy (Some s) = true ↔ s ≠ "".
Proof.
  unfold truthy. rewrite negb_true_iff, bool_decide_eq_false. done.
Qed.

Lemma cond_holds_regex (s : string) (fv : option value) :
  cond_holds (VDict {[ "$regex" := VStr s; "$options" := VStr "i" ]}) fv = true ↔
  ∃ p t, regex_parse s = Some p ∧ fv = Some (VStr t) ∧ regex_search true p t = true.
Proof.
  unfold cond_holds.
  rewrite lookup_insert_eq, lookup_insert_ne, lookup_singleton_eq by done.
  change (parse_options "i") with (Some true).
  destruct (regex_parse s) as [p|].
  - destruct fv as [[]|]; try (split; [done | by intros (? & ? & ? & ? & ?)]).
    split; [by eauto|]. by intros (? & ? & [= <-] & [= <-] & ?).
  - split; [done | by intros (? & ? & ? & ? & ?)].
Qed.

Lemma alternative_holds_regex (doc : dict) (field s : string) :
  alternative_holds doc
    (VDict {[ field := VDict {[ "$regex" := VStr s; "$options" := VStr "i" ]} ]}) = true ↔
  field_matches doc field s.
Proof.
  unfold alternative_holds, fields_hold, field_matches.
  rewrite bool_decide_eq_true, map_Forall_singleton. apply cond_holds_regex.
Qed.

Lemma clause_holds_or (doc : dict) (s : string) :
  clause_holds doc "$or"
    (VList
       [ VDict {[ "title" := VDict {[ "$regex" := VStr s; "$options" := VStr "i" ]} ]};
         VDict {[ "description" :=
                    VDict {[ "$regex" := VStr s; "$options" := VStr "i" ]} ]} ]) = true ↔
  field_matches doc "title" s ∨ field_matches doc "description" s.
Proof.
  unfold clause_holds. rewrite bool_decide_eq_true_2 by done.
  cbn [existsb]. rewrite orb_false_r, orb_true_iff, !alternative_holds_regex.
  done.
Qed.

Lemma clause_holds_category (doc : dict) (c : string) :
  clause_holds doc "category" (VStr c) = true ↔ doc !! "category" = Some (VStr c).
Proof.
  unfold clause_holds. rewrite bool_decide_eq_false_2 by done.
  unfold cond_holds. destruct (doc !! "category") as [[]|]; try done.
  rewrite bool_decide_eq_true. split; congruence.
Qed.


Lemma build_query_search (c : option string) (s : string) :
  s ≠ "" →
  build_query c (Some s) =
  <["$or" :=
      VList
        [ VDict {[ "title" := VDict {[ "$regex" := VStr s; "$options" := VStr "i" ]} ]};
          VDict {[ "description" :=
                     VDict {[ "$regex" := VStr s; "$options" := VStr "i" ]} ]} ]]>
    (build_query c None).
Proof.
  intros Hs. unfold build_query. apply truthy_Some in Hs. by rewrite Hs.
Qed.



(** C9: an empty category or search text builds the filter of an
    absent one, and the listing is the same for every world and
    limit. *)
Theorem empty_text_is_absent (py_str : value → string) (store_unavailable : string)
    (category search : option string) (limit : option Z) (w : world) :
  build_query (Some "") search = build_query None search
  ∧ build_query category (Some "") = build_query category None
  ∧ list_products py_str store_unavailable (Some "") search limit w
    = list_products py_str store_unavailable None search limit w
  ∧ list_products py_str store_unavailable category (Some "") limit w
    = list_products py_str store_unavailable category None limit w.
Proof.
  assert (H1 : ∀ s, build_query (Some "") s = build_query None s) by done.
  assert (H2 : ∀ c, build_query c (Some "") = build_query c None) by done.
  unfold list_products. by rewrite H1, H2.
Qed.

(** A search text without metacharacters gives a filter inside the
    modelled fragment, whatever the category. *)
Lemma cond_modelled_regex (s : string) :
  literal s = true →
  cond_modelled (VDict {[ "$regex" := VStr s; "$options" := VStr "i" ]}) = true.
Proof.
  intros Hlit. unfold cond_modelled.
  rewrite lookup_insert_eq, lookup_insert_ne, lookup_singleton_eq by done.
  rewrite (regex_parse_literal s Hlit).
  rewrite map_size_insert_None, map_size_singleton by done.
  rewrite !andb_true_iff, !bool_decide_eq_true. by eauto.
Qed.

Lemma build_query_no_search_modelled (c : option string) :
  build_query c None !! "$or" = None ∧ query_modelled (build_query c None) = true.
Proof.
  unfold build_query, query_modelled. destruct c as [c|]; [|done].
  destruct (truthy (Some c)); [|done]. split; [done|].
  apply bool_decide_eq_true_2, map_Forall_insert; [done|]. split; [done|].
  apply map_Forall_empty.
Qed.

Lemma query_modelled_literal (c : option string) (s : string) :
  s ≠ "" → literal s = true → query_modelled (build_query c (Some s)) = true.
Proof.
  intros Hs Hlit. rewrite (build_query_search c s Hs).
  destruct (build_query_no_search_modelled c) as [Hnone Hrest].
  unfold query_modelled in *. apply bool_decide_eq_true in Hrest.
  apply bool_decide_eq_true_2, map_Forall_insert; [done|]. split; [|done].
  unfold clause_modelled. rewrite bool_decide_eq_true_2 by done.
  cbn [forallb alternative_modelled]. unfold fields_modelled.
  rewrite !andb_true_iff, !bool_decide_eq_true, !map_Forall_singleton.
  by rewrite (cond_modelled_regex s Hlit).
Qed.

(** ** The store client *)

Lemma round_trip_answers (n : nat) (w : world) :
  store_answers (S n) w = true →
  round_trip w = (Return (), World (db w) (environ w) (tail (faults w)))
  ∧ store_answers n (World (db w) (environ w) (tail (faults w))) = true.
Proof.
  unfold store_answers, round_trip. destruct w as [d env fs]; simpl.
  destruct fs as [|[e|] fs]; simpl; [by destruct n | done | done].
Qed.


Lemma store_answers_head (w : world) :
  store_answers 1 w = true ↔ ∀ e, head (faults w) ≠ Some (Some e).
Proof.
  unfold store_answers. destruct (faults w) as [|[e|] fs]; simpl.
  - split; [by intros _ e | done].
  - split; [done | intros H; by destruct (H e)].
  - split; [by intros _ e | done].
Qed.

Lemma matching_sound (q : dict) (docs : list dict) (doc : dict) :
  doc ∈ matching q docs → doc ∈ docs ∧ query_holds q doc = true.
Proof.
  unfold matching. rewrite !list_elem_of_In, filter_In. done.
Qed.

Section HandlerProperties.

Variable py_str : value → string.
Variable store_unavailable : string.

Lemma find_answers (coll : string) (q : dict) (limit : Z) (w : world) (d : database) :
  db w = Some d → store_answers 1 w = true → query_modelled q = true →
  find coll q limit w
  = (Return (take (Z.to_nat limit) (matching q (documents coll d))),
     World (db w) (environ w) (tail (faults w))).
Proof.
  intros Hd Hf Hq. unfold find, bind, the_db. rewrite Hd.
  destruct (round_trip_answers 0 w Hf) as [-> _]. rewrite Hq. unfold ret.
  by rewrite Hd.
Qed.


Lemma insert_one_answers (coll : string) (doc : dict) (w : world) (d : database) :
  db w = Some d → store_answers 1 w = true → doc !! "_id" = None →
  insert_one coll doc w
  = (Return (VOid (next_oid d)),
     World (Some (Database (name d)
                    (<[coll := (documents coll d
                                ++ [<["_id" := VOid (next_oid d)]> doc])%list]>
                       (collections d))
                    (N.succ (next_oid d))))
       (environ w) (tail (faults w))).
Proof.
  intros Hd Hf Hid. unfold insert_one, bind, the_db. rewrite Hd.
  destruct (round_trip_answers 0 w Hf) as [-> _]. by rewrite Hid.
Qed.

Lemma insert_one_raises (coll : string) (doc : dict) (w : world) (d : database)
    (e : exn) :
  db w = Some d → head (faults w) = Some (Some e) →
  insert_one coll doc w = (Raise e, World (db w) (environ w) (tail (faults w))).
Proof.
  destruct w as [dbo env fs]. simpl. intros -> Hf.
  destruct fs as [|[e'|] fs]; by simplify_eq/=.
Qed.

Lemma documents_insert (coll : string) (docs : list dict) (d : database)
    (n : N) (a : attribute) :
  documents coll (Database a (<[coll := docs]> (collections d)) n) = docs.
Proof. unfold documents. simpl. by rewrite lookup_insert_eq. Qed.

(** The outcomes of the adapter's create operation on a record that
    brings no identifier of its own. *)
Lemma create_document_outcome (coll : string) (r : dict) (w : world) :
  r !! "_id" = None →
  (∃ d d' w',
      db w = Some d ∧ db w' = Some d'
      ∧ create_document py_str store_unavailable coll r w
        = (Return (py_str (VOid (next_oid d))), w')
      ∧ documents coll d'
        = (documents coll d ++ [<["_id" := VOid (next_oid d)]> r])%list)
  ∨ (∃ e w', create_document py_str store_unavailable coll r w = (Raise e, w')).
Proof.
  intros Hid. unfold create_document.
  destruct (db w) as [d|] eqn:Hd; [|right; by eexists _, _].
  unfold bind.
  destruct (store_answers 1 w) eqn:Hf.
  - left. eexists d, _, _. split; [done|].
    rewrite (insert_one_answers coll r w d Hd Hf Hid).
    split; [|split]; [| reflexivity |]; simpl; [done|]. apply documents_insert.
  - right. destruct (head (faults w)) as [[e|]|] eqn:He.
    + rewrite (insert_one_raises coll r w d e Hd He). by eexists _, _.
    + exfalso. apply not_true_iff_false in Hf. apply Hf, store_answers_head.
      intros e. by rewrite He.
    + exfalso. apply not_true_iff_false in Hf. apply Hf, store_answers_head.
      intros e. by rewrite He.
Qed.

(** C5: on a validated record, [create_product] returns [{id}] with
    the identifier the store assigned and [create_order] returns
    [{id, status: "received"}]; an exception of the create operation
    becomes HTTP 500 with the exception's message; nothing else
    happens. *)
Theorem create_handlers_outcomes (r : dict) (w : world) :
  r !! "_id" = None →
  ((∃ d d' w',
       db w = Some d ∧ db w' = Some d'
       ∧ create_product py_str store_unavailable r w
         = (Return {[ "id" := VStr (py_str (VOid (next_oid d))) ]}, w')
       ∧ documents "product" d'
         = (documents "product" d ++ [<["_id" := VOid (next_oid d)]> r])%list)
   ∨ (∃ e w',
         create_document py_str store_unavailable "product" r w = (Raise e, w')
         ∧ create_product py_str store_unavailable r w
           = (HTTPException 500 (exn_str e), w')))
  ∧ ((∃ d d' w',
         db w = Some d ∧ db w' = Some d'
         ∧ create_order py_str store_unavailable r w
           = (Return {[ "id" := VStr (py_str (VOid (next_oid d)));
                        "status" := VStr "received" ]}, w')
         ∧ documents "order" d'
           = (documents "order" d ++ [<["_id" := VOid (next_oid d)]> r])%list)
     ∨ (∃ e w',
           create_document py_str store_unavailable "order" r w = (Raise e, w')
           ∧ create_order py_str store_unavailable r w
             = (HTTPException 500 (exn_str e), w'))).
Proof.
  intros Hid. unfold create_product, create_order, try_except, bind.
  split.
  - destruct (create_document_outcome "product" r w Hid)
      as [(d & d' & w' & Hd & Hd' & -> & Hdocs) | (e & w' & ->)].
    + left. by exists d, d', w'.
    + right. by exists e, w'.
  - destruct (create_document_outcome "order" r w Hid)
      as [(d & d' & w' & Hd & Hd' & -> & Hdocs) | (e & w' & ->)].
    + left. by exists d, d', w'.
    + right. by exists e, w'.
Qed.

(** C6: without a store handle the listing and the seeding fail with
    HTTP 500 and the fixed message, and the world is as before: no
    round trip to the store was made. *)
Theorem unconfigured_store_fails (c s : option string) (l : option Z) (w : world) :
  db w = None →
  list_products py_str store_unavailable c s l w
  = (HTTPException 500 "Database not configured", w)
  ∧ seed_products w = (HTTPException 500 "Database not configured", w).
Proof.
  intros Hd. unfold list_products, seed_products, raise_http. by rewrite Hd.
Qed.

(** ** The listing *)

Lemma rename_id_spec (p : dict) (oid : value) :
  p !! "_id" = Some oid →
  rename_id py_str p !! "_id" = None
  ∧ rename_id py_str p !! "id" = Some (VStr (py_str oid))
  ∧ ∀ k, k ≠ "_id" → k ≠ "id" → rename_id py_str p !! k = p !! k.
Proof.
  intros Hp. unfold rename_id. rewrite Hp. split; [|split].
  - rewrite lookup_insert_ne by done. apply lookup_delete_eq.
  - apply lookup_insert_eq.
  - intros k H1 H2. rewrite lookup_insert_ne by done. by apply lookup_delete_ne.
Qed.


Lemma list_products_get_documents (c s : option string) (l : option Z)
    (w w' : world) (rs : list dict) :
  list_products py_str store_unavailable c s l w = (Return rs, w') →
  ∃ ps, get_documents store_unavailable "product" (build_query c s) (default 100 l) w
        = (Return ps, w')
        ∧ rs = rename_id py_str <$> ps.
Proof.
  unfold list_products, bind, ret. cbv zeta.
  destruct (db w) as [d|]; [|intros; simplify_eq].
  destruct (get_documents _ _ _ _ w) as [[ps| | |] w1]; intros; simplify_eq/=.
  by exists ps.
Qed.

(** C4: a returned record that carried ["_id"] has lost it and holds
    under ["id"] the text of that identifier; every other field is as
    the store gave it. *)
Theorem list_products_renames_id (c s : option string) (l : option Z)
    (w w' : world) (rs : list dict) :
  list_products py_str store_unavailable c s l w = (Return rs, w') →
  ∃ ps,
    get_documents store_unavailable "product" (build_query c s) (default 100 l) w
    = (Return ps, w')
    ∧ length rs = length ps
    ∧ ∀ (i : nat) (p : dict) (oid : value),
        ps !! i = Some p → p !! "_id" = Some oid →
        ∃ r, rs !! i = Some r
             ∧ r !! "_id" = None
             ∧ r !! "id" = Some (VStr (py_str oid))
             ∧ ∀ k, k ≠ "_id" → k ≠ "id" → r !! k = p !! k.
Proof.
  intros H. destruct (list_products_get_documents _ _ _ _ _ _ H) as (ps & Hps & ->).
  exists ps. split; [done|]. split; [by rewrite length_fmap|].
  intros i p oid Hi Hoid. exists (rename_id py_str p). split.
  - by rewrite list_lookup_fmap, Hi.
  - by apply rename_id_spec.
Qed.


Lemma store_answers_S (n : nat) (w : world) :
  store_answers (S n) w = true →
  store_answers 1 w = true
  ∧ store_answers n (World (db w) (environ w) (tail (faults w))) = true.
Proof.
  unfold store_answers. destruct (faults w) as [|[e|] fs]; simpl; [|done|].
  - by destruct n.
  - done.
Qed.

Lemma list_products_answers (c s : option string) (l : option Z) (w : world)
    (d : database) :
  db w = Some d → store_answers 1 w = true →
  query_modelled (build_query c s) = true →
  list_products py_str store_unavailable c s l w
  = (Return (rename_id py_str
               <$> take (Z.to_nat (default 100 l))
                     (matching (build_query c s) (documents "product" d))),
     World (db w) (environ w) (tail (faults w))).
Proof.
  intros Hd Hf Hq. unfold list_products, get_documents, bind. cbv zeta.
  rewrite Hd. by rewrite (find_answers _ _ _ _ d Hd Hf Hq), Hd.
Qed.

(** A listing with a search text without metacharacters returns when
    the store answers. *)
Lemma list_products_literal_search_returns (c : option string) (s : string)
    (l : option Z) (w : world) (d : database) :
  db w = Some d → store_answers 1 w = true → s ≠ "" → literal s = true →
  ∃ rs,
    list_products py_str store_unavailable c (Some s) l w
    = (Return rs, World (db w) (environ w) (tail (faults w))).
Proof.
  intros Hd Hf Hs Hlit. eexists.
  apply (list_products_answers c (Some s) l w d Hd Hf).
  by apply query_modelled_literal.
Qed.

(** C8: the limit reaches the store as the caller gave it, 100 when
    the caller gave none, and is not capped: the listing holds the
    first [limit] matching records, so exactly 2 for [limit=2] when at
    least 2 records match. *)
Theorem list_products_limit (c s : option string) (w : world) (d : database) :
  db w = Some d → store_answers 1 w = true →
  query_modelled (build_query c s) = true →
  let found := matching (build_query c s) (documents "product" d) in
  let w' := World (db w) (environ w) (tail (faults w)) in
  (∀ n : Z,
      list_products py_str store_unavailable c s (Some n) w
      = (Return (rename_id py_str <$> take (Z.to_nat n) found), w')
      ∧ length (rename_id py_str <$> take (Z.to_nat n) found)
        = Nat.min (Z.to_nat n) (length found))
  ∧ list_products py_str store_unavailable c s None w
    = list_products py_str store_unavailable c s (Some 100) w
  ∧ ((2 ≤ length found)%nat →
     ∃ rs, list_products py_str store_unavailable c s (Some 2) w = (Return rs, w')
           ∧ length rs = 2%nat).
Proof.
  intros Hd Hf Hq found w'. split; [|split].
  - intros n. split.
    + apply (list_products_answers c s (Some n) w d Hd Hf Hq).
    + by rewrite length_fmap, length_take.
  - done.
  - intros Hlen. eexists. split.
    + apply (list_products_answers c s (Some 2) w d Hd Hf Hq).
    + rewrite length_fmap, length_take.
      change (Z.to_nat (default 100 (Some 2))) with 2%nat.
      unfold found in Hlen. lia.
Qed.

(** ** Seeding *)

Lemma query_modelled_empty : query_modelled ∅ = true.
Proof. apply bool_decide_eq_true_2, map_Forall_empty. Qed.

Lemma matching_empty (docs : list dict) : matching ∅ docs = docs.
Proof.
  unfold matching. induction docs as [|doc docs IH]; simpl; [done|].
  unfold query_holds at 1.
  rewrite bool_decide_eq_true_2 by apply map_Forall_empty. by rewrite IH.
Qed.

Lemma count_documents_all (w : world) (d : database) :
  db w = Some d → store_answers 1 w = true →
  count_documents "product" ∅ w
  = (Return (Z.of_nat (length (documents "product" d))),
     World (db w) (environ w) (tail (faults w))).
Proof.
  intros Hd Hf. unfold count_documents, bind, the_db. rewrite Hd.
  destruct (round_trip_answers 0 w Hf) as [-> _].
  rewrite query_modelled_empty, matching_empty. unfold ret. by rewrite Hd.
Qed.

Lemma insert_each_answers (docs : list dict) (w : world) (d : database) :
  db w = Some d → store_answers (length docs) w = true →
  Forall (λ doc : dict, doc !! "_id" = None) docs →
  ∃ d',
    insert_each docs w
    = (Return (), World (Some d') (environ w) (drop (length docs) (faults w)))
    ∧ name d' = name d
    ∧ next_oid d' = (next_oid d + N.of_nat (length docs))%N
    ∧ documents "product" d'
      = (documents "product" d ++ stored_as (next_oid d) docs)%list
    ∧ ∀ coll, coll ≠ "product" → collections d' !! coll = collections d !! coll.
Proof.
  revert w d. induction docs as [|doc docs IH]; intros w d Hd Hf Hids.
  - exists d. destruct w as [dbo env fs]. simpl in *. subst dbo.
    repeat split; [by rewrite N.add_0_r | by rewrite app_nil_r].
  - apply Forall_cons in Hids as [Hid Hids].
    apply store_answers_S in Hf as [Hf1 Hf].
    cbn [insert_each]. unfold bind at 1.
    rewrite (insert_one_answers "product" doc w d Hd Hf1 Hid).
    match goal with
    | |- context [insert_each docs (World (Some ?d1) ?env ?fs)] =>
        destruct (IH (World (Some d1) env fs) d1 eq_refl Hf Hids)
          as (d' & -> & Hname & Hoid & Hdocs & Hother)
    end.
    exists d'. cbn [environ faults length] in *.
    rewrite documents_insert in Hdocs. cbn [next_oid name] in *.
    split; [by destruct (faults w); simpl; rewrite ?drop_nil|].
    split; [done|]. split; [lia|].
    split; [by rewrite Hdocs, <- app_assoc|].
    intros coll Hcoll. rewrite (Hother coll Hcoll). cbn [collections].
    by rewrite lookup_insert_ne.
Qed.

Lemma seed_docs_fresh : Forall (λ doc : dict, doc !! "_id" = None) seed_docs.
Proof. repeat constructor. Qed.

(** C1: on an empty product collection the seeding inserts the four
    demonstration records, two of category ["tshirt"] and two of
    category ["hoodie"], and returns [seeded=true] with count 4; on a
    collection that holds a record it inserts nothing, returns
    [seeded=false] and leaves the store as it was. *)
Theorem seed_products_guarded (w : world) (d : database) :
  db w = Some d →
  (documents "product" d = [] → store_answers 5 w = true →
   ∃ d',
     seed_products w
     = (Return {[ "seeded" := VBool true; "count" := VInt 4 ]},
        World (Some d') (environ w) (drop 5 (faults w)))
     ∧ documents "product" d' = stored_as (next_oid d) seed_docs
     ∧ length (documents "product" d') = 4%nat
     ∧ (λ doc : dict, doc !! "category") <$> documents "product" d'
       = Some <$> [VStr "tshirt"; VStr "tshirt"; VStr "hoodie"; VStr "hoodie"]
     ∧ (∀ coll, coll ≠ "product" → collections d' !! coll = collections d !! coll)
     ∧ name d' = name d ∧ next_oid d' = (next_oid d + 4)%N)
  ∧ (documents "product" d ≠ [] → store_answers 1 w = true →
     seed_products w
     = (Return {[ "seeded" := VBool false;
                  "message" := VStr "Products already exist" ]},
        World (Some d) (environ w) (tail (faults w)))).
Proof.
  intros Hd. unfold seed_products, try_except. rewrite Hd. split.
  - intros Hempty Hf. apply store_answers_S in Hf as [Hf1 Hf].
    unfold bind at 1. rewrite (count_documents_all w d Hd Hf1), Hempty, Hd.
    change (0 <? Z.of_nat (length [])) with false. cbv beta iota zeta.
    unfold bind.
    destruct (insert_each_answers seed_docs
                (World (Some d) (environ w) (tail (faults w))) d
                eq_refl Hf seed_docs_fresh)
      as (d' & -> & Hname & Hoid & Hdocs & Hother).
    exists d'. rewrite Hempty in Hdocs. cbn [app] in Hdocs.
    split; [| split; [done | split; [by rewrite Hdocs | split; [|done]]]].
    + cbn [environ faults]. unfold ret.
      by destruct (faults w); simpl; rewrite ?drop_nil.
    + rewrite Hdocs. reflexivity.
  - intros Hsome Hf. unfold bind.
    rewrite (count_documents_all w d Hd Hf), Hd.
    destruct (documents "product" d) as [|doc docs]; [done|].
    reflexivity.
Qed.

(** ** The diagnostic endpoint *)

Lemma probe_database_outcome (response : dict) (w : world) :
  response !! "collections" = Some (VList []) →
  ∃ resp w',
    probe_database response w = (Return resp, w')
    ∧ db w' = db w ∧ environ w' = environ w
    ∧ resp !! "database" = Some (VStr (database_status w))
    ∧ resp !! "collections" = Some (VList (VStr <$> reported_collections w)).
Proof.
  intros Hc. destruct w as [[d|] env fs].
  - unfold probe_database, database_status, reported_collections.
    cbn [db name faults]. destruct (name d) as [|n|e] eqn:Hn.
    + unfold try_except, name_or_connected. rewrite Hn. unfold bind at 1, ret at 1.
      unfold probe_collections, try_except, list_collection_names, bind, the_db.
      cbn [db]. unfold round_trip. cbn [faults db environ].
      destruct fs as [|[e|] fs]; cbn [head tail ret]; eexists _, _;
        (split; [reflexivity|]); cbn [db environ];
        repeat split; by simplify_map_eq.
    + unfold try_except, name_or_connected. rewrite Hn. unfold bind at 1, ret at 1.
      unfold probe_collections, try_except, list_collection_names, bind, the_db.
      cbn [db]. unfold round_trip. cbn [faults db environ].
      destruct fs as [|[e|] fs]; cbn [head tail ret]; eexists _, _;
        (split; [reflexivity|]); cbn [db environ];
        repeat split; by simplify_map_eq.
    + unfold try_except, name_or_connected. rewrite Hn. unfold bind, raise, ret.
      eexists _, _. split; [reflexivity|]. repeat split; by simplify_map_eq.
  - unfold probe_database, database_status, reported_collections, ret.
    cbn [db]. eexists _, _. split; [reflexivity|]. repeat split; by simplify_map_eq.
Qed.

Lemma test_database_outcome (w : world) :
  ∃ resp w',
    test_database w
    = (Return (<["database_name" := set_or_not (environ w !! "DATABASE_NAME")]>
                 (<["database_url" := set_or_not (environ w !! "DATABASE_URL")]> resp)),
       w')
    ∧ db w' = db w ∧ environ w' = environ w
    ∧ resp !! "database" = Some (VStr (database_status w))
    ∧ resp !! "collections" = Some (VList (VStr <$> reported_collections w)).
Proof.
  unfold test_database. cbv zeta.
  match goal with
  | |- context [probe_database ?r0] =>
      destruct (probe_database_outcome r0 w eq_refl)
        as (resp & w' & Hrun & Hdb & Henv & Hstatus & Hcolls)
  end.
  exists resp, w'. unfold bind at 1. rewrite Hrun.
  unfold bind, getenv, ret. by rewrite Henv.
Qed.

(** C7: in every state of the store the diagnostic endpoint returns a
    response and raises nothing; the response names the state in its
    ["database"] text, lists at most 10 collection names, and neither
    the store nor the environment has changed. *)
Theorem test_database_never_raises (w : world) :
  ∃ body w',
    test_database w = (Return body, w')
    ∧ db w' = db w ∧ environ w' = environ w
    ∧ body !! "database" = Some (VStr (database_status w))
    ∧ body !! "collections" = Some (VList (VStr <$> reported_collections w))
    ∧ (length (reported_collections w) ≤ 10)%nat.
Proof.
  destruct (test_database_outcome w)
    as (resp & w' & Hrun & Hdb & Henv & Hstatus & Hcolls).
  eexists _, w'. split; [exact Hrun|]. repeat split; try done.
  - by rewrite !lookup_insert_ne.
  - by rewrite !lookup_insert_ne.
  - unfold reported_collections.
    destruct (db w) as [d|]; [|simpl; lia].
    destruct (name d), (head (faults w)) as [[?|]|];
      first [rewrite length_take; lia | simpl; lia].
Qed.

(** C10, as the code has it: the final ["database_url"] and
    ["database_name"] texts are decided only by whether the variables
    [DATABASE_URL] and [DATABASE_NAME] hold a non-empty text, whatever
    the state of the store. *)
Theorem test_database_env_fields (w : world) :
  ∃ body w',
    test_database w = (Return body, w')
    ∧ body !! "database_url"
      = Some (VStr (if truthy (environ w !! "DATABASE_URL")
                    then "✅ Set" else "❌ Not Set"))
    ∧ body !! "database_name"
      = Some (VStr (if truthy (environ w !! "DATABASE_NAME")
                    then "✅ Set" else "❌ Not Set")).
Proof.
  destruct (test_database_outcome w) as (resp & w' & Hrun & _).
  eexists _, w'. split; [exact Hrun|]. unfold set_or_not. split.
  - rewrite lookup_insert_ne by done. rewrite lookup_insert_eq.
    by destruct (truthy _).
  - rewrite lookup_insert_eq. by destruct (truthy _).
Qed.

End HandlerProperties.

(** * The handlers on sample worlds *)

Lemma seed_products_guarded_witness :
  db empty_shop = Some (Database (AttrValue "dyfn") ∅ 1)
  ∧ db seeded_shop = Some seeded_db
  ∧ (∃ d',
        seed_products empty_shop
        = (Return {[ "seeded" := VBool true; "count" := VInt 4 ]},
           World (Some d') ∅ [])
        ∧ documents "product" d' = stored_as 1 seed_docs
        ∧ length (documents "product" d') = 4%nat)
  ∧ seed_products seeded_shop
    = (Return {[ "seeded" := VBool false;
                 "message" := VStr "Products already exist" ]}, seeded_shop).
Proof.
  split; [reflexivity|]. split; [reflexivity|]. split.
  - destruct (seed_products_guarded empty_shop (Database (AttrValue "dyfn") ∅ 1)
                eq_refl) as [Hseed _].
    destruct (Hseed eq_refl eq_refl) as (d' & Hrun & Hdocs & Hlen & _).
    exists d'. split; [exact Hrun|]. split; [exact Hdocs | exact Hlen].
  - destruct (seed_products_guarded seeded_shop seeded_db eq_refl) as [_ Hkeep].
    apply Hkeep; [|reflexivity]. vm_compute. discriminate.
Defined.


Lemma list_products_renames_id_witness :
  list_products id_text "" (Some "hoodie") None (Some 1) seeded_shop
  = (Return (rename_id id_text <$> take 1 (drop 2 (stored_as 1 seed_docs))),
     seeded_shop)
  ∧ ∃ ps,
      get_documents "" "product" (build_query (Some "hoodie") None) 1 seeded_shop
      = (Return ps, seeded_shop)
      ∧ length (rename_id id_text <$> take 1 (drop 2 (stored_as 1 seed_docs)))
        = length ps
      ∧ ∀ (i : nat) (p : dict) (oid : value),
          ps !! i = Some p → p !! "_id" = Some oid →
          ∃ r, (rename_id id_text <$> take 1 (drop 2 (stored_as 1 seed_docs))) !! i
               = Some r
               ∧ r !! "_id" = None
               ∧ r !! "id" = Some (VStr (id_text oid))
               ∧ ∀ k, k ≠ "_id" → k ≠ "id" → r !! k = p !! k.
Proof.
  assert (Hrun : list_products id_text "" (Some "hoodie") None (Some 1) seeded_shop
                 = (Return (rename_id id_text
                              <$> take 1 (drop 2 (stored_as 1 seed_docs))),
                    seeded_shop)) by (vm_compute; reflexivity).
  split; [exact Hrun|].
  exact (list_products_renames_id id_text "" (Some "hoodie") None (Some 1)
           seeded_shop seeded_shop _ Hrun).
Defined.


Lemma create_handlers_outcomes_witness :
  heavyweight_hoodie !! "_id" = None
  ∧ create_product id_text "" heavyweight_hoodie empty_shop
    = (Return {[ "id" := VStr "1" ]},
       World (Some (Database (AttrValue "dyfn")
                      {[ "product" := [<["_id" := VOid 1]> heavyweight_hoodie] ]} 2))
         ∅ [])
  ∧ create_order id_text "" heavyweight_hoodie unconfigured
    = (HTTPException 500 "", unconfigured)
  ∧ ((∃ d d' w',
         db empty_shop = Some d ∧ db w' = Some d'
         ∧ create_product id_text "" heavyweight_hoodie empty_shop
           = (Return {[ "id" := VStr (id_text (VOid (next_oid d))) ]}, w')
         ∧ documents "product" d'
           = (documents "product" d
              ++ [<["_id" := VOid (next_oid d)]> heavyweight_hoodie])%list)
     ∨ (∃ e w',
           create_document id_text "" "product" heavyweight_hoodie empty_shop
           = (Raise e, w')
           ∧ create_product id_text "" heavyweight_hoodie empty_shop
             = (HTTPException 500 (exn_str e), w'))).
Proof.
  split; [reflexivity|]. split; [vm_compute; reflexivity|].
  split; [vm_compute; reflexivity|].
  exact (proj1 (create_handlers_outcomes id_text "" heavyweight_hoodie empty_shop
                  eq_refl)).
Defined.

Lemma unconfigured_store_fails_witness :
  db unconfigured = None
  ∧ list_products id_text "" (Some "hoodie") (Some "cozy") (Some 2) unconfigured
    = (HTTPException 500 "Database not configured", unconfigured)
  ∧ seed_products unconfigured
    = (HTTPException 500 "Database not configured", unconfigured).
Proof.
  split; [reflexivity|].
  exact (unconfigured_store_fails id_text "" (Some "hoodie") (Some "cozy") (Some 2)
           unconfigured eq_refl).
Defined.

Lemma list_products_limit_witness :
  db seeded_shop = Some seeded_db
  ∧ store_answers 1 seeded_shop = true
  ∧ query_modelled (build_query None None) = true
  ∧ (2 ≤ length (matching (build_query None None) (documents "product" seeded_db)))%nat
  ∧ ∃ rs,
      list_products id_text "" None None (Some 2) seeded_shop = (Return rs, seeded_shop)
      ∧ length rs = 2%nat.
Proof.
  split; [reflexivity|]. split; [reflexivity|]. split; [reflexivity|].
  assert (Hlen : (2 ≤ length (matching (build_query None None)
                                (documents "product" seeded_db)))%nat)
    by (vm_compute; lia).
  split; [exact Hlen|].
  exact (proj2 (proj2 (list_products_limit id_text "" None None seeded_shop seeded_db
                         eq_refl eq_refl eq_refl)) Hlen).
Defined.

(** * Where the code departs from the specification *)


(** C10 as the specification states it fails: with [DATABASE_URL] set
    to the empty text the variable is set, yet the response says it is
    not; two environments that both set the variable get different
    texts. *)
Lemma test_database_env_counterexample :
  let w1 := World None {[ "DATABASE_URL" := "" ]} [] in
  let w2 := World None {[ "DATABASE_URL" := "mongodb://localhost:27017" ]} [] in
  is_Some (environ w1 !! "DATABASE_URL")
  ∧ is_Some (environ w2 !! "DATABASE_URL")
  ∧ environ w1 !! "DATABASE_NAME" = None
  ∧ environ w2 !! "DATABASE_NAME" = None
  ∧ ∃ body1 body2,
      test_database w1 = (Return body1, w1)
      ∧ test_database w2 = (Return body2, w2)
      ∧ body1 !! "database_url" = Some (VStr "❌ Not Set")
      ∧ body2 !! "database_url" = Some (VStr "✅ Set").
Proof.
  cbv zeta. split; [by eexists|]. split; [by eexists|].
  split; [reflexivity|]. split; [reflexivity|].
  eexists _, _. split; [vm_compute; reflexivity|].
  split; [vm_compute; reflexivity|]. split; vm_compute; reflexivity.
Qed.

(** * Further properties of the handlers *)

(** ** Seeding: failures and repetition *)

Lemma count_documents_raises (coll : string) (q : dict) (w : world) (d : database)
    (e : exn) :
  db w = Some d → head (faults w) = Some (Some e) →
  count_documents coll q w = (Raise e, World (db w) (environ w) (tail (faults w))).
Proof.
  destruct w as [dbo env fs]. simpl. intros -> Hf.
  destruct fs as [|[e'|] fs]; by simplify_eq/=.
Qed.

(** [seed_products] once the count has answered. *)
Lemma seed_products_counted (w : world) (d : database) :
  db w = Some d → store_answers 1 w = true →
  let w1 := World (Some d) (environ w) (tail (faults w)) in
  seed_products w
  = match documents "product" d with
    | [] =>
        match insert_each seed_docs w1 with
        | (Return _, w2) =>
            (Return {[ "seeded" := VBool true; "count" := VInt 4 ]}, w2)
        | (Raise e, w2) => (HTTPException 500 (exn_str e), w2)
        | (HTTPException st detail, w2) => (HTTPException st detail, w2)
        | (Unmodelled, w2) => (Unmodelled, w2)
        end
    | _ :: _ =>
        (Return {[ "seeded" := VBool false;
                   "message" := VStr "Products already exist" ]}, w1)
    end.
Proof.
  intros Hd Hf. unfold seed_products, try_except. rewrite Hd.
  unfold bind at 1. rewrite (count_documents_all w d Hd Hf), Hd.
  destruct (documents "product" d) as [|doc docs]; [|reflexivity].
  change (0 <? Z.of_nat (length [])) with false. cbv beta iota zeta.
  unfold bind. by destruct (insert_each seed_docs _) as [[| | |] ?].
Qed.

(** The loop of inserts when the round trip of insert number [k]
    (counted from 0) raises: the first [k] documents are stored and
    stay stored. *)
Lemma insert_each_raises (docs : list dict) (k : nat) (w : world) (d : database)
    (e : exn) (rest : list (option exn)) :
  db w = Some d → (k < length docs)%nat →
  faults w = (replicate k None ++ Some e :: rest)%list →
  Forall (λ doc : dict, doc !! "_id" = None) docs →
  ∃ d',
    insert_each docs w = (Raise e, World (Some d') (environ w) rest)
    ∧ name d' = name d
    ∧ documents "product" d'
      = (documents "product" d ++ stored_as (next_oid d) (take k docs))%list
    ∧ ∀ coll, coll ≠ "product" → collections d' !! coll = collections d !! coll.
Proof.
  revert k w d. induction docs as [|doc docs IH]; intros k w d Hd Hk Hf Hids.
  - simpl in Hk. lia.
  - apply Forall_cons in Hids as [Hid Hids]. cbn [insert_each]. unfold bind at 1.
    destruct k as [|k].
    + rewrite (insert_one_raises "product" doc w d e Hd) by (by rewrite Hf).
      exists d. rewrite Hd, Hf. simpl. by rewrite app_nil_r.
    + assert (Hf1 : store_answers 1 w = true)
        by (unfold store_answers; by rewrite Hf).
      rewrite (insert_one_answers "product" doc w d Hd Hf1 Hid).
      match goal with
      | |- context [insert_each docs (World (Some ?d1) ?env ?fs)] =>
          destruct (IH k (World (Some d1) env fs) d1 eq_refl)
            as (d' & -> & Hname & Hdocs & Hother);
            [simpl in Hk; lia | by (cbn [faults]; rewrite Hf) | done |]
      end.
      exists d'. cbn [environ name next_oid] in *.
      rewrite documents_insert in Hdocs.
      split; [done|]. split; [done|]. split.
      * rewrite Hdocs, <- app_assoc. done.
      * intros coll Hcoll. rewrite (Hother coll Hcoll). cbn [collections].
        by rewrite lookup_insert_ne.
Qed.

Lemma tail_drop {A} (n : nat) (l : list A) : tail (drop n l) = drop (S n) l.
Proof.
  revert l. induction n as [|n IH]; intros [|x l]; simpl; auto.
Qed.

Lemma tail_as_drop {A} (l : list A) : tail l = drop 1 l.
Proof. by destruct l. Qed.

Lemma store_answers_drop (k m : nat) (w w' : world) :
  faults w' = drop k (faults w) →
  store_answers (k + m) w = true → store_answers m w' = true.
Proof.
  unfold store_answers. intros ->. rewrite !forallb_forall. intros H x Hx.
  apply H. apply list_elem_of_In. apply list_elem_of_In in Hx.
  apply elem_of_take in Hx as (i & Hi & Hlt). rewrite lookup_drop in Hi.
  apply elem_of_take. exists (k + i)%nat. split; [done | lia].
Qed.

Lemma store_answers_weaken (m n : nat) (w w' : world) :
  faults w' = faults w → (m ≤ n)%nat →
  store_answers n w = true → store_answers m w' = true.
Proof.
  unfold store_answers. intros -> Hle. rewrite !forallb_forall. intros H x Hx.
  apply H. apply list_elem_of_In. apply list_elem_of_In in Hx.
  apply elem_of_take in Hx as (i & Hi & Hlt).
  apply elem_of_take. exists i. split; [done | lia].
Qed.

(** X1: seeding twice: the first call on an empty product collection
    inserts the four records, the second call finds them and inserts
    nothing, so the store after the second call is the store after the
    first. *)
Theorem seed_products_twice (w : world) (d : database) :
  db w = Some d → documents "product" d = [] → store_answers 6 w = true →
  ∃ d',
    seed_products w
    = (Return {[ "seeded" := VBool true; "count" := VInt 4 ]},
       World (Some d') (environ w) (drop 5 (faults w)))
    ∧ seed_products (World (Some d') (environ w) (drop 5 (faults w)))
      = (Return {[ "seeded" := VBool false;
                   "message" := VStr "Products already exist" ]},
         World (Some d') (environ w) (drop 6 (faults w)))
    ∧ documents "product" d' = stored_as (next_oid d) seed_docs.
Proof.
  intros Hd Hempty Hf.
  assert (Hf1 : store_answers 1 w = true)
    by (apply (store_answers_weaken 1 6 w w eq_refl); [lia | done]).
  assert (Hf4 : store_answers 4
                  (World (Some d) (environ w) (tail (faults w))) = true).
  { apply (store_answers_drop 1 4 w); [apply tail_as_drop|].
    apply (store_answers_weaken 5 6 w w eq_refl); [lia | done]. }
  destruct (insert_each_answers seed_docs
              (World (Some d) (environ w) (tail (faults w))) d
              eq_refl Hf4 seed_docs_fresh)
    as (d' & Hrun & _ & _ & Hdocs & _).
  rewrite Hempty in Hdocs. cbn [app] in Hdocs.
  cbn [environ faults] in Hrun.
  change (length seed_docs) with 4%nat in Hrun.
  exists d'. split; [|split; [|done]].
  - rewrite (seed_products_counted w d Hd Hf1), Hempty. cbv zeta.
    rewrite Hrun. by rewrite tail_as_drop, drop_drop.
  - assert (Hf6 : store_answers 1
                    (World (Some d') (environ w) (drop 5 (faults w))) = true)
      by (by apply (store_answers_drop 5 1 w)).
    rewrite (seed_products_counted
               (World (Some d') (environ w) (drop 5 (faults w))) d' eq_refl Hf6).
    rewrite Hdocs. cbv zeta. cbn [environ faults stored_as seed_docs].
    by rewrite tail_drop.
Qed.

Lemma length_stored_as (oid : N) (docs : list dict) :
  length (stored_as oid docs) = length docs.
Proof.
  revert oid. induction docs as [|doc docs IH]; intros oid; simpl; [done|].
  by rewrite IH.
Qed.

(** X2: when the count itself fails, the seeding answers HTTP 500 with the
    message of the store's exception and has inserted nothing. *)
Theorem seed_products_count_fails (w : world) (d : database) (e : exn) :
  db w = Some d → head (faults w) = Some (Some e) →
  seed_products w
  = (HTTPException 500 (exn_str e), World (Some d) (environ w) (tail (faults w))).
Proof.
  intros Hd Hf. unfold seed_products, try_except. rewrite Hd.
  unfold bind. rewrite (count_documents_raises "product" ∅ w d e Hd Hf).
  unfold raise_http. by rewrite Hd.
Qed.

(** X3: no rollback: when insert number [k] of the seeding fails, the
    answer is HTTP 500 with the message of the store's exception, the
    [k] records inserted before stay in the store, and, once one of
    them is there, a later seeding inserts nothing more. *)
Theorem seed_products_partial_failure (w : world) (d : database) (k : nat)
    (e : exn) (rest : list (option exn)) :
  db w = Some d → documents "product" d = [] → (k < 4)%nat →
  faults w = (None :: replicate k None ++ Some e :: rest)%list →
  ∃ d',
    seed_products w
    = (HTTPException 500 (exn_str e), World (Some d') (environ w) rest)
    ∧ documents "product" d' = stored_as (next_oid d) (take k seed_docs)
    ∧ length (documents "product" d') = k
    ∧ ((0 < k)%nat → store_answers 1 (World (Some d') (environ w) rest) = true →
       seed_products (World (Some d') (environ w) rest)
       = (Return {[ "seeded" := VBool false;
                    "message" := VStr "Products already exist" ]},
          World (Some d') (environ w) (tail rest))).
Proof.
  intros Hd Hempty Hk Hf.
  assert (Hf1 : store_answers 1 w = true)
    by (unfold store_answers; by rewrite Hf).
  destruct (insert_each_raises seed_docs k
              (World (Some d) (environ w) (tail (faults w))) d e rest eq_refl)
    as (d' & Hrun & _ & Hdocs & _);
    [simpl; lia | by (cbn [faults]; rewrite Hf) | apply seed_docs_fresh |].
  rewrite Hempty in Hdocs. cbn [app] in Hdocs.
  assert (Hlen : length (documents "product" d') = k).
  { rewrite Hdocs, length_stored_as, length_take. simpl. lia. }
  exists d'. split; [|split; [done | split; [done|]]].
  - rewrite (seed_products_counted w d Hd Hf1), Hempty. cbv zeta.
    by rewrite Hrun.
  - intros Hpos Hanswers.
    rewrite (seed_products_counted (World (Some d') (environ w) rest) d'
               eq_refl Hanswers). cbv zeta.
    destruct (documents "product" d') as [|doc docs]; [simpl in Hlen; lia|].
    reflexivity.
Qed.

Lemma insert_each_outcome (docs : list dict) (w : world) (d : database) :
  db w = Some d → Forall (λ doc : dict, doc !! "_id" = None) docs →
  ∃ w', insert_each docs w = (Return (), w')
        ∨ ∃ e, insert_each docs w = (Raise e, w').
Proof.
  revert w d. induction docs as [|doc docs IH]; intros w d Hd Hids.
  - exists w. by left.
  - apply Forall_cons in Hids as [Hid Hids]. cbn [insert_each]. unfold bind.
    destruct (store_answers 1 w) eqn:Hf.
    + rewrite (insert_one_answers "product" doc w d Hd Hf Hid). cbv beta iota.
      match goal with
      | |- context [insert_each docs (World (Some ?d1) ?env ?fs)] =>
          apply (IH (World (Some d1) env fs) d1 eq_refl Hids)
      end.
    + destruct (head (faults w)) as [[e|]|] eqn:He.
      * rewrite (insert_one_raises "product" doc w d e Hd He).
        eexists. right. by exists e.
      * exfalso. apply not_true_iff_false in Hf. apply Hf, store_answers_head.
        intros e. by rewrite He.
      * exfalso. apply not_true_iff_false in Hf. apply Hf, store_answers_head.
        intros e. by rewrite He.
Qed.

Lemma seed_products_cases (w : world) :
  ∃ w',
    seed_products w
    = (Return {[ "seeded" := VBool true; "count" := VInt 4 ]}, w')
    ∨ seed_products w
      = (Return {[ "seeded" := VBool false;
                   "message" := VStr "Products already exist" ]}, w')
    ∨ ∃ detail, seed_products w = (HTTPException 500 detail, w').
Proof.
  destruct (db w) as [d|] eqn:Hd.
  - destruct (store_answers 1 w) eqn:Hf.
    + rewrite (seed_products_counted w d Hd Hf). cbv zeta.
      destruct (documents "product" d) as [|doc docs]; [|by eauto].
      destruct (insert_each_outcome seed_docs
                  (World (Some d) (environ w) (tail (faults w))) d
                  eq_refl seed_docs_fresh) as (w' & [-> | (e & ->)]).
      * exists w'. by left.
      * exists w'. right. right. by eexists.
    + destruct (head (faults w)) as [[e|]|] eqn:He.
      * eexists. right. right. eexists.
        unfold seed_products, try_except. rewrite Hd. unfold bind.
        rewrite (count_documents_raises "product" ∅ w d e Hd He). reflexivity.
      * exfalso. apply not_true_iff_false in Hf. apply Hf, store_answers_head.
        intros e. by rewrite He.
      * exfalso. apply not_true_iff_false in Hf. apply Hf, store_answers_head.
        intros e. by rewrite He.
  - exists w. right. right. eexists. unfold seed_products. by rewrite Hd.
Qed.

(** X4: whatever the state of the store, the seeding ends in one of three
    ways: the four records inserted, nothing to do, or HTTP 500; an
    exception of the store never leaves the handler. *)
Theorem seed_products_outcomes (w : world) :
  (∃ w',
      seed_products w
      = (Return {[ "seeded" := VBool true; "count" := VInt 4 ]}, w')
      ∨ seed_products w
        = (Return {[ "seeded" := VBool false;
                     "message" := VStr "Products already exist" ]}, w')
      ∨ ∃ detail, seed_products w = (HTTPException 500 detail, w'))
  ∧ (∀ e w', seed_products w ≠ (Raise e, w')).
Proof.
  split; [apply seed_products_cases|].
  intros e w' H.
  destruct (seed_products_cases w) as (w1 & [H1 | [H1 | [detail H1]]]);
    rewrite H1 in H; discriminate.
Qed.

(** ** The listing: failures, what it returns, what it leaves alone *)

Lemma matching_sublist (q : dict) (docs : list dict) :
  matching q docs `sublist_of` docs.
Proof.
  unfold matching. induction docs as [|doc docs IH]; simpl; [constructor|].
  destruct (query_holds q doc); by constructor.
Qed.

Lemma matching_complete (q : dict) (docs : list dict) (doc : dict) :
  doc ∈ docs → query_holds q doc = true → doc ∈ matching q docs.
Proof.
  unfold matching. rewrite !list_elem_of_In, filter_In. done.
Qed.

Lemma query_holds_category (c : string) (doc : dict) :
  c ≠ "" →
  query_holds (build_query (Some c) None) doc = true ↔
  doc !! "category" = Some (VStr c).
Proof.
  intros Hc. unfold build_query. apply truthy_Some in Hc. rewrite Hc.
  unfold query_holds. rewrite bool_decide_eq_true, map_Forall_insert by done.
  rewrite clause_holds_category. split; [by intros [? _]|].
  intros H. split; [done|]. apply map_Forall_empty.
Qed.

Section ListingProperties.

Variable py_str : value → string.
Variable store_unavailable : string.

(** X5: a failure of the store during a listing is not caught: the
    store's exception leaves [list_products] as it is, after the one
    round trip, whatever the parameters. *)
Theorem list_products_store_failure (c s : option string) (l : option Z)
    (w : world) (d : database) (e : exn) :
  db w = Some d → head (faults w) = Some (Some e) →
  list_products py_str store_unavailable c s l w
  = (Raise e, World (Some d) (environ w) (tail (faults w))).
Proof.
  destruct w as [dbo env fs]. simpl. intros -> Hf.
  unfold list_products, get_documents, find, bind, the_db, round_trip.
  destruct fs as [|[e'|] fs]; by simplify_eq/=.
Qed.

(** X6: a listing reads: whatever it is asked and however it ends, the
    store handle, the store's contents and the environment are those
    of before, and at most one round trip was made. *)
Theorem list_products_reads_only (c s : option string) (l : option Z) (w : world) :
  let w' := snd (list_products py_str store_unavailable c s l w) in
  db w' = db w ∧ environ w' = environ w
  ∧ (faults w' = faults w ∨ faults w' = tail (faults w)).
Proof.
  destruct w as [[d|] env fs]; [|by (cbv zeta; simpl; auto)].
  unfold list_products, get_documents, find, bind, the_db, round_trip, ret,
    unmodelled. cbv zeta. cbn [db faults environ].
  destruct fs as [|[e|] fs]; cbn [tail];
    destruct (query_modelled (build_query c s)); simpl; auto.
Qed.

Lemma rename_id_no_oid (p : dict) : rename_id py_str p !! "_id" = None.
Proof.
  unfold rename_id. destruct (p !! "_id") as [oid|] eqn:Hp; [|done].
  rewrite lookup_insert_ne by done. apply lookup_delete_eq.
Qed.

(** X7: no returned record holds the store's identifier field, whether it
    came with one or not. *)
Theorem list_products_hides_oid (c s : option string) (l : option Z)
    (w w' : world) (rs : list dict) :
  list_products py_str store_unavailable c s l w = (Return rs, w') →
  ∀ r, r ∈ rs → r !! "_id" = None.
Proof.
  intros H r Hr.
  destruct (list_products_get_documents _ _ _ _ _ _ _ _ H) as (ps & _ & ->).
  apply list_elem_of_fmap in Hr as (p & -> & _). apply rename_id_no_oid.
Qed.

(** X8: with a category and no search text the listing holds, in the
    store's order and up to the limit, exactly the records of the
    collection whose category is that text, letter for letter. *)
Theorem list_products_by_category (c : string) (l : option Z) (w : world)
    (d : database) :
  c ≠ "" → db w = Some d → store_answers 1 w = true →
  ∃ found,
    list_products py_str store_unavailable (Some c) None l w
    = (Return (rename_id py_str <$> take (Z.to_nat (default 100 l)) found),
       World (db w) (environ w) (tail (faults w)))
    ∧ found `sublist_of` documents "product" d
    ∧ ∀ p, p ∈ found ↔
           p ∈ documents "product" d ∧ p !! "category" = Some (VStr c).
Proof.
  intros Hc Hd Hf.
  exists (matching (build_query (Some c) None) (documents "product" d)).
  split; [|split].
  - apply (list_products_answers py_str store_unavailable (Some c) None l w d Hd Hf).
    apply build_query_no_search_modelled.
  - apply matching_sublist.
  - intros p. rewrite <- (query_holds_category c p Hc). split.
    + apply matching_sound.
    + intros [? ?]. by apply matching_complete.
Qed.

(** X9: without a category and without a search text (absent or empty)
    the listing is the first [limit] records of the whole collection
    in the store's order, each with its identifier renamed. *)
Theorem list_products_unfiltered (c s : option string) (l : option Z) (w : world)
    (d : database) :
  truthy c = false → truthy s = false →
  db w = Some d → store_answers 1 w = true →
  list_products py_str store_unavailable c s l w
  = (Return (rename_id py_str
               <$> take (Z.to_nat (default 100 l)) (documents "product" d)),
     World (db w) (environ w) (tail (faults w))).
Proof.
  intros Hc Hs Hd Hf.
  assert (Hq : build_query c s = ∅).
  { unfold build_query. destruct c, s; by rewrite ?Hc, ?Hs. }
  rewrite (list_products_answers py_str store_unavailable c s l w d Hd Hf);
    rewrite Hq; [|apply query_modelled_empty].
  by rewrite matching_empty.
Qed.

End ListingProperties.

(** ** Creating, then listing *)

Section CreateProperties.

Variable py_str : value → string.
Variable store_unavailable : string.




(** X11: a creation touches one collection: [create_product] leaves every
    collection but ["product"] as it was, [create_order] every
    collection but ["order"], however the call ends; and neither puts
    a handle where there was none. *)
Theorem create_touches_one_collection (r : dict) (w : world) :
  let after_product := snd (create_product py_str store_unavailable r w) in
  let after_order := snd (create_order py_str store_unavailable r w) in
  match db w with
  | None => db after_product = None ∧ db after_order = None
  | Some d =>
      (∃ d', db after_product = Some d'
             ∧ ∀ coll, coll ≠ "product" →
                       collections d' !! coll = collections d !! coll)
      ∧ (∃ d', db after_order = Some d'
               ∧ ∀ coll, coll ≠ "order" →
                         collections d' !! coll = collections d !! coll)
  end.
Proof.
  destruct w as [[d|] env fs]; cbv zeta; cbn [db]; [|done].
  unfold create_product, create_order, try_except, create_document, bind,
    insert_one, the_db, round_trip, put_db, ret, unmodelled, raise_http.
  cbn [db faults environ].
  split.
  - destruct fs as [|[e|] fs]; cbn [tail]; destruct (r !! "_id");
      simpl; eexists; (split; [reflexivity|]); intros coll Hcoll;
      cbn [collections]; rewrite ?lookup_insert_ne by congruence; done.
  - destruct fs as [|[e|] fs]; cbn [tail]; destruct (r !! "_id");
      simpl; eexists; (split; [reflexivity|]); intros coll Hcoll;
      cbn [collections]; rewrite ?lookup_insert_ne by congruence; done.
Qed.


End CreateProperties.

(** ** The diagnostic endpoint: shape and truncation *)






(** ** The search text: letter case *)

Lemma prefix_ci_lower (s s' t : string) :
  string_lower s = string_lower s' → prefix_ci s t = prefix_ci s' t.
Proof.
  revert s' t. induction s as [|a s IH]; intros [|a' s'] t Hs; simpl in *;
    try done.
  injection Hs as Ha Hs. destruct t as [|b t]; [done|].
  by rewrite Ha, (IH s' t Hs).
Qed.

Lemma occurs_cib_lower (s s' t : string) :
  string_lower s = string_lower s' → occurs_cib s t = occurs_cib s' t.
Proof.
  intros Hs. induction t as [|b t IH]; simpl;
    rewrite (prefix_ci_lower s s' _ Hs); [done|]. by rewrite IH.
Qed.

Lemma field_matches_lower (s s' : string) (doc : dict) (field : string) :
  literal s = true → literal s' = true → string_lower s = string_lower s' →
  field_matches doc field s → field_matches doc field s'.
Proof.
  intros Hlit Hlit' Hs (p & t & Hp & Ht & Hsearch).
  rewrite (regex_parse_literal s Hlit) in Hp. injection Hp as <-.
  eexists _, t. split; [by apply regex_parse_literal|]. split; [done|].
  rewrite regex_search_literal in *. by rewrite <- (occurs_cib_lower s s' t Hs).
Qed.

Lemma query_holds_lower (c : option string) (s s' : string) (doc : dict) :
  s ≠ "" → s' ≠ "" →
  literal s = true → literal s' = true → string_lower s = string_lower s' →
  query_holds (build_query c (Some s)) doc
  = query_holds (build_query c (Some s')) doc.
Proof.
  intros Hne Hne' Hlit Hlit' Hs.
  rewrite (build_query_search c s Hne), (build_query_search c s' Hne').
  destruct (build_query_no_search_modelled c) as [Hnone _].
  unfold query_holds. apply bool_decide_ext.
  rewrite !map_Forall_insert by done. rewrite !clause_holds_or.
  split; intros [[H | H] Hrest]; (split; [|done]);
    [left | right | left | right];
    (eapply field_matches_lower; [| | |exact H]; done).
Qed.

Section SearchProperties.

Variable py_str : value → string.
Variable store_unavailable : string.

(** X15: the search does not see the case of letters in the search text:
    two texts without metacharacters that differ only in the case of
    their letters give the same listing in every world. *)
Theorem list_products_search_ignores_case (c : option string) (s s' : string)
    (l : option Z) (w : world) :
  literal s = true → literal s' = true → string_lower s = string_lower s' →
  list_products py_str store_unavailable c (Some s) l w
  = list_products py_str store_unavailable c (Some s') l w.
Proof.
  intros Hlit Hlit' Hs.
  destruct (decide (s = "")) as [-> | Hne].
  { destruct s'; [done | discriminate]. }
  assert (Hne' : s' ≠ "") by (intros ->; destruct s; [done | discriminate]).
  unfold list_products, get_documents, find. cbv zeta.
  rewrite (query_modelled_literal c s Hne Hlit),
    (query_modelled_literal c s' Hne' Hlit').
  unfold matching.
  assert (Hext : ∀ docs,
             List.filter (query_holds (build_query c (Some s))) docs
             = List.filter (query_holds (build_query c (Some s'))) docs).
  { intros docs. apply filter_ext. intros doc. by apply query_holds_lower. }
  destruct (db w); [|done].
  unfold bind. destruct (the_db w) as [[d0| | |] w1]; try done.
  destruct (round_trip w1) as [[[]| | |] w2]; try done.
  by rewrite Hext.
Qed.

(** ** Error statuses *)

(** X16: every HTTP error that the listing, the two creations and the
    seeding raise has status 500. *)
Theorem handlers_raise_only_500 (c s : option string) (l : option Z) (r : dict)
    (w w' : world) (status : Z) (detail : string) :
  list_products py_str store_unavailable c s l w = (HTTPException status detail, w')
  ∨ create_product py_str store_unavailable r w = (HTTPException status detail, w')
  ∨ create_order py_str store_unavailable r w = (HTTPException status detail, w')
  ∨ seed_products w = (HTTPException status detail, w') →
  status = 500.
Proof.
  intros [H | [H | [H | H]]].
  - revert H. unfold list_products, get_documents, find, bind, the_db, round_trip,
      ret, unmodelled, raise_http. cbv zeta.
    destruct w as [[d|] env fs]; cbn [db faults]; [|by intros [= <- _ _]].
    destruct fs as [|[e|] fs]; destruct (query_modelled (build_query c s));
      intros; simplify_eq/=.
  - revert H. unfold create_product, try_except, create_document, bind, insert_one,
      the_db, round_trip, put_db, ret, unmodelled, raise_http, raise.
    destruct w as [[d|] env fs]; cbn [db faults]; [|by intros [= <- _ _]].
    destruct fs as [|[e|] fs]; destruct (r !! "_id"); intros; by simplify_eq/=.
  - revert H. unfold create_order, try_except, create_document, bind, insert_one,
      the_db, round_trip, put_db, ret, unmodelled, raise_http, raise.
    destruct w as [[d|] env fs]; cbn [db faults]; [|by intros [= <- _ _]].
    destruct fs as [|[e|] fs]; destruct (r !! "_id"); intros; by simplify_eq/=.
  - destruct (seed_products_cases w) as (w1 & [H1 | [H1 | [detail1 H1]]]);
      rewrite H1 in H; by simplify_eq.
Qed.

End SearchProperties.

(** * The further properties on sample worlds *)

Lemma seed_products_twice_witness :
  db empty_shop = Some (Database (AttrValue "dyfn") ∅ 1)
  ∧ documents "product" (Database (AttrValue "dyfn") ∅ 1) = []
  ∧ store_answers 6 empty_shop = true
  ∧ ∃ d',
      seed_products empty_shop
      = (Return {[ "seeded" := VBool true; "count" := VInt 4 ]},
         World (Some d') ∅ [])
      ∧ seed_products (World (Some d') ∅ [])
        = (Return {[ "seeded" := VBool false;
                     "message" := VStr "Products already exist" ]},
           World (Some d') ∅ [])
      ∧ documents "product" d' = stored_as 1 seed_docs.
Proof.
  split; [reflexivity|]. split; [reflexivity|]. split; [reflexivity|].
  exact (seed_products_twice empty_shop (Database (AttrValue "dyfn") ∅ 1)
           eq_refl eq_refl eq_refl).
Defined.

Lemma seed_products_count_fails_witness :
  db (scheduled_shop [Some (Exception "timed out")])
  = Some (Database (AttrValue "dyfn") ∅ 1)
  ∧ head (faults (scheduled_shop [Some (Exception "timed out")]))
    = Some (Some (Exception "timed out"))
  ∧ seed_products (scheduled_shop [Some (Exception "timed out")])
    = (HTTPException 500 "timed out", scheduled_shop []).
Proof.
  split; [reflexivity|]. split; [reflexivity|].
  exact (seed_products_count_fails (scheduled_shop [Some (Exception "timed out")])
           (Database (AttrValue "dyfn") ∅ 1) (Exception "timed out")
           eq_refl eq_refl).
Defined.

Lemma seed_products_partial_failure_witness :
  db (scheduled_shop [None; None; None; Some (Exception "write rejected")])
  = Some (Database (AttrValue "dyfn") ∅ 1)
  ∧ (2 < 4)%nat
  ∧ ∃ d',
      seed_products
        (scheduled_shop [None; None; None; Some (Exception "write rejected")])
      = (HTTPException 500 "write rejected", World (Some d') ∅ [])
      ∧ documents "product" d' = stored_as 1 (take 2 seed_docs)
      ∧ length (documents "product" d') = 2%nat
      ∧ ((0 < 2)%nat → store_answers 1 (World (Some d') ∅ []) = true →
         seed_products (World (Some d') ∅ [])
         = (Return {[ "seeded" := VBool false;
                      "message" := VStr "Products already exist" ]},
            World (Some d') ∅ [])).
Proof.
  split; [reflexivity|]. split; [lia|].
  exact (seed_products_partial_failure
           (scheduled_shop [None; None; None; Some (Exception "write rejected")])
           (Database (AttrValue "dyfn") ∅ 1) 2 (Exception "write rejected") []
           eq_refl eq_refl ltac:(lia) eq_refl).
Defined.

Lemma list_products_store_failure_witness :
  db (World (Some seeded_db) ∅ [Some (Exception "timed out")]) = Some seeded_db
  ∧ list_products id_text "" (Some "hoodie") (Some "cozy") None
      (World (Some seeded_db) ∅ [Some (Exception "timed out")])
    = (Raise (Exception "timed out"), seeded_shop).
Proof.
  split; [reflexivity|].
  exact (list_products_store_failure id_text "" (Some "hoodie") (Some "cozy") None
           (World (Some seeded_db) ∅ [Some (Exception "timed out")]) seeded_db
           (Exception "timed out") eq_refl eq_refl).
Defined.

Lemma list_products_hides_oid_witness :
  list_products id_text "" None None (Some 3) seeded_shop
  = (Return (rename_id id_text <$> take 3 (stored_as 1 seed_docs)), seeded_shop)
  ∧ ∀ r, r ∈ rename_id id_text <$> take 3 (stored_as 1 seed_docs) →
         r !! "_id" = None.
Proof.
  assert (Hrun : list_products id_text "" None None (Some 3) seeded_shop
                 = (Return (rename_id id_text <$> take 3 (stored_as 1 seed_docs)),
                    seeded_shop)) by (vm_compute; reflexivity).
  split; [exact Hrun|].
  exact (list_products_hides_oid id_text "" None None (Some 3)
           seeded_shop seeded_shop _ Hrun).
Defined.

Lemma list_products_by_category_witness :
  "tshirt" ≠ "" ∧ db seeded_shop = Some seeded_db
  ∧ store_answers 1 seeded_shop = true
  ∧ ∃ found,
      list_products id_text "" (Some "tshirt") None (Some 10) seeded_shop
      = (Return (rename_id id_text <$> take (Z.to_nat 10) found), seeded_shop)
      ∧ found `sublist_of` documents "product" seeded_db
      ∧ ∀ p, p ∈ found ↔
             p ∈ documents "product" seeded_db
             ∧ p !! "category" = Some (VStr "tshirt").
Proof.
  split; [discriminate|]. split; [reflexivity|]. split; [reflexivity|].
  exact (list_products_by_category id_text "" "tshirt" (Some 10)
           seeded_shop seeded_db ltac:(discriminate) eq_refl eq_refl).
Defined.

Lemma list_products_unfiltered_witness :
  truthy (Some "") = false ∧ truthy None = false
  ∧ db seeded_shop = Some seeded_db ∧ store_answers 1 seeded_shop = true
  ∧ list_products id_text "" (Some "") None (Some 3) seeded_shop
    = (Return (rename_id id_text
                 <$> take (Z.to_nat 3) (documents "product" seeded_db)),
       seeded_shop).
Proof.
  split; [reflexivity|]. split; [reflexivity|]. split; [reflexivity|].
  split; [reflexivity|].
  exact (list_products_unfiltered id_text "" (Some "") None (Some 3)
           seeded_shop seeded_db eq_refl eq_refl eq_refl eq_refl).
Defined.




Lemma list_products_search_ignores_case_witness :
  literal "cozy" = true ∧ literal "COZY" = true
  ∧ string_lower "cozy" = string_lower "COZY"
  ∧ list_products id_text "" None (Some "cozy") None seeded_shop
    = list_products id_text "" None (Some "COZY") None seeded_shop.
Proof.
  split; [reflexivity|]. split; [reflexivity|]. split; [reflexivity|].
  exact (list_products_search_ignores_case id_text "" None "cozy" "COZY" None
           seeded_shop eq_refl eq_refl eq_refl).
Defined.

Lemma handlers_raise_only_500_witness :
  seed_products unconfigured
  = (HTTPException 500 "Database not configured", unconfigured)
  ∧ (500 = 500).
Proof.
  assert (Hrun : seed_products unconfigured
                 = (HTTPException 500 "Database not configured", unconfigured))
    by reflexivity.
  split; [exact Hrun|].
  exact (handlers_raise_only_500 id_text "" None None None ∅
           unconfigured unconfigured 500 "Database not configured"
           (or_intror (or_intror (or_intror Hrun)))).
Defined.
